(** * The prompt session of [src/App.tsx]

    A shallow embedding of the single component of the application: the
    request payload, the response extractor, the escape normalizer, the two
    response renderings and the [handleSend] pipeline, followed by the
    properties of each.

    JavaScript values are dynamically typed, so the functions that receive
    the parsed response work on a type [value] of run-time values and run
    in a completion monad (normal result or thrown exception), which is
    what [try]/[catch] in the source observes. *)

From Stdlib Require Import Floats Ascii.
From stdpp Require Import gmap strings list pretty.

Set Warnings "-register-all".

Local Open Scope string_scope.
Local Open Scope Z_scope.

(** ** Run-time values *)

(** A JavaScript value as [response.json()] can produce it, together with
    [undefined], which a missing property reads as.  Strings are sequences
    of code units held in a Rocq [string]; every character the source
    inspects (backslash, [n], [r], [t]) is ASCII.  Objects are finite maps
    from property names to values. *)
Inductive value : Type :=
  | VUndefined
  | VNull
  | VBool (b : bool)
  | VNumber (x : float)
  | VString (s : string)
  | VArray (l : list value)
  | VObject (m : gmap string value).

(** What can be thrown.  [DOMException] inherits from [Error] in browsers;
    [NonError] stands for any thrown value that is not an [Error]. *)
Inductive exn : Type :=
  | DOMException (name message : string)
  | Error (name message : string)
  | NonError.

(** Completion of an evaluation: a value, or an abrupt completion by
    [throw]. *)
Inductive completion (A : Type) : Type :=
  | Normal (a : A)
  | Throw (e : exn).
Arguments Normal {A} a.
Arguments Throw {A} e.

Definition bind {A B : Type} (c : completion A) (k : A → completion B) : completion B :=
  match c with
  | Normal a => k a
  | Throw e => Throw e
  end.

Notation "'let*' x := c 'in' k" := (bind c (fun x => k))
  (at level 10, x name, c at level 100, k at level 200).

(** [try { c } catch { h }] *)
Definition try_catch {A : Type} (c : completion A) (h : exn → A) : A :=
  match c with
  | Normal a => a
  | Throw e => h e
  end.

(** ** Property reads *)

(** The property names the source reads from a response. [P_0] is the
    index [[0]], which on an object is the property named ["0"]. None of
    these names is inherited from a prototype, so a read finds an own
    property or nothing. *)
Inductive prop : Type :=
  | P_choices
  | P_message
  | P_content
  | P_output
  | P_data
  | P_0.

Definition prop_name (p : prop) : string :=
  match p with
  | P_choices => "choices"
  | P_message => "message"
  | P_content => "content"
  | P_output => "output"
  | P_data => "data"
  | P_0 => "0"
  end.

Definition isNullish (v : value) : bool :=
  match v with
  | VUndefined | VNull => true
  | _ => false
  end.

(** The value of property [p] of a base [v] that is neither [null] nor
    [undefined]: an own property of an object, element 0 of an array, the
    first code unit of a string, and [undefined] otherwise. *)
Definition ownProperty (v : value) (p : prop) : value :=
  match v with
  | VObject m => default VUndefined (m !! prop_name p)
  | VArray l =>
      match p with
      | P_0 => default VUndefined (l !! 0%nat)
      | _ => VUndefined
      end
  | VString s =>
      match p, s with
      | P_0, String c _ => VString (String c "")
      | _, _ => VUndefined
      end
  | _ => VUndefined
  end.

(** [v.p]: throws a [TypeError] on [null] and [undefined]. *)
Definition member (v : value) (p : prop) : completion value :=
  if isNullish v
  then Throw (Error "TypeError" ("Cannot read properties of null or undefined (reading '" +:+ prop_name p +:+ "')"))
  else Normal (ownProperty v p).

(** [v?.p]: [undefined] on [null] and [undefined]. *)
Definition member_opt (v : value) (p : prop) : completion value :=
  if isNullish v then Normal VUndefined else member v p.

(** [typeof v === 'string'] *)
Definition isString (v : value) : bool :=
  match v with
  | VString _ => true
  | _ => false
  end.

(** [v.length > 0] for a string [v]. The source evaluates it only to the
    right of [typeof v === 'string' &&]; where it reads the path again
    ([asOutput.output.content.length]) the value is the string just
    tested, see [output_reads_agree]. *)
Definition lengthPositive (v : value) : bool :=
  match v with
  | VString s => (0 <? String.length s)%nat
  | _ => false
  end.

(** ** The response extractor *)

Module Extractor.

(** The body of the [try] block of [extractAssistantText]. The second
    shape is tested and returned through plain member reads
    ([asOutput.output.content]), as in the source. *)
Definition extractAssistantText_try (data : value) : completion value :=
  (* 1) OpenAI Chat Completions *)
  let* choices := member_opt data P_choices in
  let* choice := member_opt choices P_0 in
  let* msg := member_opt choice P_message in
  let* openAiText := member_opt msg P_content in
  if isString openAiText && lengthPositive openAiText then Normal openAiText else
  (* 2) { output: { content: string } } *)
  let* out := member_opt data P_output in
  let* outContent := member_opt out P_content in
  let* nonEmpty :=
    (if isString outContent
     then (let* o := member data P_output in
           let* c := member o P_content in
           Normal (lengthPositive c))
     else Normal false) in
  if (nonEmpty : bool) then (let* o := member data P_output in member o P_content) else
  (* 3) { data: { choices: [{ message: { content: string } }] } } *)
  let* wrapped := member_opt data P_data in
  let* choices' := member_opt wrapped P_choices in
  let* choice' := member_opt choices' P_0 in
  let* msg' := member_opt choice' P_message in
  let* nestedContent := member_opt msg' P_content in
  if isString nestedContent && lengthPositive nestedContent then Normal nestedContent else
  (* 4) Fallback *)
  Normal (VString "").

Definition extractAssistantText (data : value) : value :=
  try_catch (extractAssistantText_try data) (fun _ => VString "").

(** *** The ordered search, as the specification words it *)

(** One tolerant step along a path: a missing base yields "no match". *)
Definition probe_step (v : value) (p : prop) : value :=
  if isNullish v then VUndefined else ownProperty v p.

Definition probe (path : list prop) (v : value) : value :=
  foldl probe_step v path.

(** The known shapes, in priority order. *)
Definition OPENAI_SHAPE : list prop := [P_choices; P_0; P_message; P_content].
Definition OUTPUT_SHAPE : list prop := [P_output; P_content].
Definition NESTED_SHAPE : list prop := [P_data; P_choices; P_0; P_message; P_content].
Definition SHAPES : list (list prop) := [OPENAI_SHAPE; OUTPUT_SHAPE; NESTED_SHAPE].

Definition isNonEmptyString (v : value) : bool :=
  match v with
  | VString "" => false
  | VString _ => true
  | _ => false
  end.

(** The first non-empty string among the probe results, or the empty
    string. *)
Fixpoint firstNonEmptyString (results : list value) : value :=
  match results with
  | [] => VString ""
  | v :: rest => if isNonEmptyString v then v else firstNonEmptyString rest
  end.

Definition orderedSearch (data : value) : value :=
  firstNonEmptyString (map (fun path => probe path data) SHAPES).

End Extractor.

(** ** The escape normalizer *)

Module Normalizer.

(** ToBoolean, the test behind [!value] and [a || b]. *)
Definition truthy (v : value) : bool :=
  match v with
  | VUndefined | VNull => false
  | VBool b => b
  | VNumber x => negb (PrimFloat.is_zero x || PrimFloat.is_nan x)
  | VString s => negb (String.eqb s "")
  | VArray _ | VObject _ => true
  end.

(** The real newline character, ['\n'] in the source. *)
Definition LF : ascii := "010"%char.
Definition NEWLINE : string := String LF "".
Definition FOUR_SPACES : string := "    ".

(** The three regular expressions are literals: [/\\r\\n/g] matches the
    four characters backslash, r, backslash, n; [/\\n/g] and [/\\t/g]
    match a backslash followed by the letter. *)
Definition RE_CRLF : string := "\r\n".
Definition RE_N : string := "\n".
Definition RE_T : string := "\t".

(** Does [s] begin with [pat]? *)
Fixpoint startsWith (s pat : string) {struct pat} : bool :=
  match pat with
  | "" => true
  | String p pat' =>
      match s with
      | "" => false
      | String c s' => Ascii.eqb c p && startsWith s' pat'
      end
  end.

(** [s.replace(/pat/g, rep)] for a literal, non-empty [pat]: scan from the
    left, replace each match and resume after it. [skip] counts the
    characters of the current match still to be passed over. *)
Fixpoint replace_from (pat rep : string) (skip : nat) (s : string) : string :=
  match s with
  | "" => ""
  | String c s' =>
      match skip with
      | S k => replace_from pat rep k s'
      | O =>
          if startsWith s pat
          then rep +:+ replace_from pat rep (String.length pat - 1) s'
          else String c (replace_from pat rep 0 s')
      end
  end.

Definition replaceAll (pat rep s : string) : string := replace_from pat rep 0 s.

(** The chain of three replacements on a string. *)
Definition unescapeString (s : string) : string :=
  replaceAll RE_T FOUR_SPACES (replaceAll RE_N NEWLINE (replaceAll RE_CRLF NEWLINE s)).

(** [unescapeNewlinesAndTabs]. The parameter is declared
    [string | undefined | null]; called on any other truthy value,
    [value.replace] is not a function and the call throws. *)
Definition unescapeNewlinesAndTabs (v : value) : completion string :=
  if negb (truthy v) then Normal ""
  else match v with
       | VString s => Normal (unescapeString s)
       | _ => Throw (Error "TypeError" "value.replace is not a function")
       end.

(** *** The contract, as the specification words it *)

(** One pass over the text: a literal backslash-r-backslash-n or
    backslash-n becomes one newline, a literal backslash-t becomes four
    spaces, every other character is kept. *)
Fixpoint normalize_from (skip : nat) (s : string) : string :=
  match s with
  | "" => ""
  | String c s' =>
      match skip with
      | S k => normalize_from k s'
      | O =>
          if startsWith s RE_CRLF then NEWLINE +:+ normalize_from 3 s'
          else if startsWith s RE_N then NEWLINE +:+ normalize_from 1 s'
          else if startsWith s RE_T then FOUR_SPACES +:+ normalize_from 1 s'
          else String c (normalize_from 0 s')
      end
  end.

Definition normalize (s : string) : string := normalize_from 0 s.

(** [s.includes(pat)] *)
Fixpoint includes (s pat : string) : bool :=
  startsWith s pat ||
  match s with
  | "" => false
  | String _ s' => includes s' pat
  end.

(** A string free of the literal escape sequences. A literal
    backslash-r-backslash-n ends in a literal backslash-n. *)
Definition escapeFree (s : string) : Prop :=
  includes s RE_CRLF = false ∧ includes s RE_N = false ∧ includes s RE_T = false.

End Normalizer.

(** ** The request builder *)

Module Request.

(** ['system' | 'user' | 'assistant'] *)
Inductive Role : Type := system | user | assistant.

Record message : Type := { role : Role; content : string }.

(** [OpenAIChatRequest]; the two optional fields are never set. *)
Record OpenAIChatRequest : Type := {
  model : string;
  messages : list message;
  temperature : option float;
  max_tokens : option float
}.

Definition DEFAULT_MODEL : string := "deepseek-chat".
Definition API_URL : string := "/qwen-api/deepseek/single-prompt".
Definition FETCH_TIMEOUT_MS : Z := 120000.
Definition SYSTEM_INSTRUCTION : string := "You are a helpful assistant.".

Definition requestPayload (prompt : string) : OpenAIChatRequest :=
  {| model := DEFAULT_MODEL;
     messages := [ {| role := system; content := SYSTEM_INSTRUCTION |};
                   {| role := user; content := prompt |} ];
     temperature := None;
     max_tokens := None |}.

End Request.

(** ** The session: component state, renderings and [handleSend] *)

Module Session.
Import Request.

Inductive view : Type := json_view | content_view.

(** The six [useState] cells of [App]. [assistantText] holds whatever
    [extractAssistantText] returned, a run-time value. *)
Record state : Type := {
  prompt : string;
  assistantText : value;
  loading : bool;
  error : option string;
  rawResponse : value;
  responseView : view
}.

Definition initial : state :=
  {| prompt := "Explain how transformers process tokens in simple terms.";
     assistantText := VString "";
     loading := false;
     error := None;
     rawResponse := VNull;
     responseView := json_view |}.

Definition setPrompt (p : string) (st : state) : state :=
  {| prompt := p; assistantText := assistantText st; loading := loading st;
     error := error st; rawResponse := rawResponse st; responseView := responseView st |}.
Definition setAssistantText (t : value) (st : state) : state :=
  {| prompt := prompt st; assistantText := t; loading := loading st;
     error := error st; rawResponse := rawResponse st; responseView := responseView st |}.
Definition setLoading (b : bool) (st : state) : state :=
  {| prompt := prompt st; assistantText := assistantText st; loading := b;
     error := error st; rawResponse := rawResponse st; responseView := responseView st |}.
Definition setError (e : option string) (st : state) : state :=
  {| prompt := prompt st; assistantText := assistantText st; loading := loading st;
     error := e; rawResponse := rawResponse st; responseView := responseView st |}.
Definition setRawResponse (r : value) (st : state) : state :=
  {| prompt := prompt st; assistantText := assistantText st; loading := loading st;
     error := error st; rawResponse := r; responseView := responseView st |}.
Definition setResponseView (w : view) (st : state) : state :=
  {| prompt := prompt st; assistantText := assistantText st; loading := loading st;
     error := error st; rawResponse := rawResponse st; responseView := w |}.

(** *** Renderings *)

(** The placeholder shown for "nothing to display" (an em dash). *)
Definition DASH : string := "—".

(** What the response block shows: a text, or the pretty-printed JSON of a
    value, [JSON.stringify(v, null, 2)], kept symbolic. *)
Inductive rendering : Type :=
  | Text (s : string)
  | PrettyJson (v : value).

(** [JSON.stringify] does not throw on plain data, so the [catch] of the
    source is not taken. *)
Definition responseJsonString (raw : value) : rendering :=
  if negb (Normalizer.truthy raw) then Text DASH else PrettyJson raw.

Definition outputContentUnescaped (raw : value) : string :=
  try_catch
    (let* out := member_opt raw P_output in
     let* c := member_opt out P_content in
     Normalizer.unescapeNewlinesAndTabs c)
    (fun _ => "").

(** [s || '—'] *)
Definition orDash (s : string) : string :=
  if String.eqb s "" then DASH else s.

(** The content rendering of the toggle. *)
Definition contentRendering (raw : value) : string :=
  orDash (outputContentUnescaped raw).

(** The content rendering as the specification words it: the extracted
    assistant text, normalized. *)
Definition extractedTextRendering (raw : value) : string :=
  orDash (try_catch
            (Normalizer.unescapeNewlinesAndTabs (Extractor.extractAssistantText raw))
            (fun _ => "")).

(** The body of the response [<pre>] block. *)
Definition responseBlock (st : state) : rendering :=
  match responseView st with
  | json_view => responseJsonString (rawResponse st)
  | content_view => Text (contentRendering (rawResponse st))
  end.

(** *** The send button *)

(** Code units that [trim] removes, among those below 256. *)
Definition isWhiteSpace (c : ascii) : bool :=
  existsb (Ascii.eqb c) ["009"; "010"; "011"; "012"; "013"; " "; "160"]%char.

Fixpoint trimStart (s : string) : string :=
  match s with
  | "" => ""
  | String c s' => if isWhiteSpace c then trimStart s' else s
  end.

Definition trim (s : string) : string :=
  String.rev (trimStart (String.rev (trimStart s))).

(** [disabled={loading || !prompt.trim()}] *)
Definition sendDisabled (st : state) : bool :=
  loading st || negb (Normalizer.truthy (VString (trim (prompt st)))).

(** *** The network *)

(** A [Response]: the two fields and the two body readers the source
    uses, each reader with the completion of its promise.  [ok] is the
    platform's flag for a success status. *)
Record response : Type := {
  ok : bool;
  status : Z;
  text : completion string;
  json : completion value
}.

(** One [fetch] call: target, method, headers, the payload that is sent
    JSON-encoded, and the delay of the timer armed on its abort
    controller. *)
Record request : Type := {
  url : string;
  method : string;
  headers : list (string * string);
  body : OpenAIChatRequest;
  abort_after_ms : Z
}.

(** What the network does with a call: it settles the call [elapsed]
    milliseconds after it was issued, with a response or a rejection, or
    it never answers. *)
Inductive network : Type :=
  | Settles (elapsed : Z) (reply : completion response)
  | Silent.

Definition AbortError : exn := DOMException "AbortError" "The operation was aborted.".

(** The reply that reaches the caller when the abort timer is set to
    [deadline] milliseconds: the network's, if it comes no later than the
    timer. *)
Definition settledBy (deadline : Z) (net : network) : option (completion response) :=
  match net with
  | Settles elapsed reply => if elapsed <=? deadline then Some reply else None
  | Silent => None
  end.

(** The completion of [await fetch(...)]: when the timer fires first,
    [controller.abort()] rejects the call with an [AbortError]. *)
Definition fetch_result (rq : request) (net : network) : completion response :=
  match settledBy (abort_after_ms rq) net with
  | Some reply => reply
  | None => Throw AbortError
  end.

(** *** [handleSend] *)

(** Up to [await fetch(...)]: the four resets, the timer and the call. *)
Definition handleSend_begin (st : state) : state * request :=
  let st := setLoading true st in
  let st := setError None st in
  let st := setAssistantText (VString "") st in
  let st := setRawResponse VNull st in
  (st, {| url := API_URL;
          method := "POST";
          headers := [("Content-Type", "application/json")];
          body := requestPayload (prompt st);
          abort_after_ms := FETCH_TIMEOUT_MS |}).

(** The rest of the [try] block, once the call has settled. *)
Definition handleSend_try (reply : completion response) (st : state) : completion unit * state :=
  match reply with
  | Throw e => (Throw e, st)
  | Normal response =>
      (* clearTimeout(timer) *)
      if negb (ok response) then
        match text response with
        | Throw e => (Throw e, st)
        | Normal body_text =>
            (Throw (Error "Error" ("HTTP " +:+ pretty (status response) +:+ ": " +:+ body_text)), st)
        end
      else
        match json response with
        | Throw e => (Throw e, st)
        | Normal data =>
            let st := setRawResponse data st in
            let content := Extractor.extractAssistantText data in
            (Normal (), setAssistantText content st)
        end
  end.

(** The [catch] block. A [DOMException] is an [Error] too. *)
Definition handleSend_catch (e : exn) (st : state) : state :=
  match e with
  | DOMException name message =>
      if String.eqb name "AbortError"
      then setError (Some ("Request timed out after " +:+ pretty (FETCH_TIMEOUT_MS / 1000) +:+ "s")) st
      else setError (Some message) st
  | Error _ message => setError (Some message) st
  | NonError => setError (Some "Unknown error") st
  end.

(** From the settled call to the end of [finally]. *)
Definition handleSend_resume (reply : completion response) (st : state) : state :=
  let '(outcome, st) := handleSend_try reply st in
  let st := match outcome with
            | Normal _ => st
            | Throw e => handleSend_catch e st
            end in
  setLoading false st.

(** One whole run of [handleSend] against a given network behaviour. *)
Definition handleSend (net : network) (st : state) : state :=
  let '(st, rq) := handleSend_begin st in
  handleSend_resume (fetch_result rq net) st.

(** *** The component as a transition system *)

(** The component together with the calls it has issued: those still
    awaited, oldest first, and the log of all of them. *)
Record world : Type := {
  ui : state;
  inflight : list request;
  calls : list request
}.

Definition start : world := {| ui := initial; inflight := []; calls := [] |}.

Inductive event : Type :=
  | ClickSend
  | ChangePrompt (p : string)
  | ToggleView (checked : bool)
  | Network (net : network).

(** A click reaches [handleSend] only when the button is enabled; the
    network event concerns the oldest awaited call. *)
Definition step (w : world) (ev : event) : world :=
  match ev with
  | ClickSend =>
      if sendDisabled (ui w) then w
      else let '(st, rq) := handleSend_begin (ui w) in
           {| ui := st; inflight := inflight w ++ [rq]; calls := calls w ++ [rq] |}
  | ChangePrompt p =>
      {| ui := setPrompt p (ui w); inflight := inflight w; calls := calls w |}
  | ToggleView checked =>
      {| ui := setResponseView (if checked then content_view else json_view) (ui w);
         inflight := inflight w; calls := calls w |}
  | Network net =>
      match inflight w with
      | [] => w
      | rq :: rest =>
          {| ui := handleSend_resume (fetch_result rq net) (ui w);
             inflight := rest; calls := calls w |}
      end
  end.

Definition run (w : world) (evs : list event) : world := foldl step w evs.

(** At most one call is awaited, and the session is loading exactly while
    one is. *)
Definition singleFlight (w : world) : Prop :=
  (inflight w = [] ∧ loading (ui w) = false) ∨
  (∃ rq, inflight w = [rq] ∧ loading (ui w) = true).

(** The [Failed] status of the specification, read off the flags: no call
    is pending and an error message is shown. *)
Definition failedWith (st : state) (reason : string) : Prop :=
  loading st = false ∧ error st = Some reason.

(** [hay.includes(needle)] *)
Definition contains (hay needle : string) : Prop :=
  Normalizer.includes hay needle = true.

End Session.

(** ** Sample data *)

Module Samples.
Import Session.

Definition obj (fields : list (string * value)) : value :=
  VObject (list_to_map fields).

(** [{choices: [{message: {content: c}}]}] *)
Definition openai_reply (c : value) : value :=
  obj [("choices", VArray [obj [("message", obj [("content", c)])]])].

(** [{output: {content: c}}] *)
Definition output_reply (c : value) : value :=
  obj [("output", obj [("content", c)])].

(** Both shapes at once: ["A"] in the first, ["B"] in the second. *)
Definition both_shapes : value :=
  obj [("choices", VArray [obj [("message", obj [("content", VString "A")])]]);
       ("output", obj [("content", VString "B")])].

Definition hi_there : value := openai_reply (VString "Hi there").

(** Values with a field missing, [null], of the wrong type, or an array
    too short, at each level of the probes. *)
Definition tolerance_samples : list value :=
  [ obj nil;
    VNull;
    VUndefined;
    VBool true;
    VNumber 7%float;
    VString "choices";
    VArray [];
    obj [("choices", VNull)];
    obj [("choices", VArray [])];
    obj [("choices", VArray [VNull])];
    obj [("choices", VString "xy")];
    obj [("choices", VArray [obj [("message", VNull)]])];
    obj [("choices", VArray [obj [("message", obj nil)]])];
    openai_reply VNull;
    openai_reply (VNumber 42%float);
    openai_reply (VString "");
    obj [("output", VNull)];
    obj [("output", VArray [])];
    output_reply VNull;
    output_reply (VBool true);
    output_reply (VString "");
    obj [("data", VNull)];
    obj [("data", obj [("choices", VArray [])])];
    obj [("data", openai_reply (VArray [VString "x"]))] ].

(** The double quote, and a JSON string literal without escapes. *)
Definition DQ : string := String "034"%char "".
Definition quoted (s : string) : string := DQ +:+ s +:+ DQ.

(** HTTP 500 with the body [server error]. *)
Definition server_error : response :=
  {| ok := false; status := 500;
     text := Normal "server error";
     json := Throw (Error "SyntaxError" "Unexpected token 's', 'server error' is not valid JSON") |}.

(** HTTP 200 with a body that is not JSON. *)
Definition not_json : response :=
  {| ok := true; status := 200;
     text := Normal "<html>busy</html>";
     json := Throw (Error "SyntaxError" "Unexpected token '<', '<html>busy</html>' is not valid JSON") |}.

(** HTTP 200 with JSON of no known shape. *)
Definition unknown_shape : response :=
  {| ok := true; status := 200;
     text := Normal ("{" +:+ quoted "result" +:+ ":" +:+ quoted "x" +:+ "}");
     json := Normal (obj [("result", VString "x")]) |}.

(** HTTP 200 with the first shape. *)
Definition hi_there_response : response :=
  {| ok := true; status := 200;
     text := Normal ("{" +:+ quoted "choices" +:+ ":[{" +:+ quoted "message" +:+ ":{"
                     +:+ quoted "content" +:+ ":" +:+ quoted "Hi there" +:+ "}}]}");
     json := Normal hi_there |}.

(** The session once ["Hello"] has been typed. *)
Definition hello : state := setPrompt "Hello" initial.

End Samples.

(** ** What the component renders *)

Module View.
Import Session.

(** The assistant box shows Markdown or a plain text. *)
Inductive box : Type :=
  | Markdown (v : value)
  | Plain (s : string).

Definition WAITING : string := "Waiting for response…".

(** [assistantText ? <ReactMarkdown>{assistantText}</ReactMarkdown>
                   : (loading ? 'Waiting for response…' : '—')] *)
Definition assistantBox (st : state) : box :=
  if Normalizer.truthy (assistantText st) then Markdown (assistantText st)
  else if loading st then Plain WAITING else Plain DASH.

(** [loading ? 'Sending…' : 'Send'] *)
Definition sendLabel (st : state) : string :=
  if loading st then "Sending…" else "Send".

(** [error && <div className="error-box">{error}</div>]: the text of the
    error box, when one is rendered. *)
Definition errorBox (st : state) : option string :=
  match error st with
  | Some message => if Normalizer.truthy (VString message) then Some message else None
  | None => None
  end.

(** What is displayed agrees with itself: while loading there is neither
    an error nor a response, an error comes with no response, and the
    assistant text is the text extracted from the stored response. *)
Definition displayConsistent (st : state) : Prop :=
  (loading st = true → error st = None ∧ rawResponse st = VNull)
  ∧ (error st ≠ None → rawResponse st = VNull)
  ∧ assistantText st = Extractor.extractAssistantText (rawResponse st).




End View.

(** * Properties *)

(** ** Property reads and the extractor *)

Section ExtractorFacts.
Import Extractor.

Lemma member_opt_step (v : value) (p : prop) :
  member_opt v p = Normal (probe_step v p).
Proof.
  unfold member_opt, member, probe_step.
  by destruct (isNullish v).
Qed.

Lemma member_step (v : value) (p : prop) :
  isNullish v = false → member v p = Normal (probe_step v p).
Proof.
  unfold member, probe_step. by intros ->.
Qed.

Lemma probe_step_nullish (v : value) (p : prop) :
  isNullish v = true → probe_step v p = VUndefined.
Proof.
  unfold probe_step. by intros ->.
Qed.

Lemma probe_snoc (path : list prop) (p : prop) (v : value) :
  probe (path ++ [p]) v = probe_step (probe path v) p.
Proof.
  unfold probe. by rewrite foldl_snoc.
Qed.

(** A string at the end of a step means the base was there. *)
Lemma probe_step_string_base (v : value) (p : prop) :
  isString (probe_step v p) = true → isNullish v = false.
Proof.
  destruct (isNullish v) eqn:E; [|done].
  by rewrite probe_step_nullish.
Qed.

Lemma nonEmpty_split (v : value) :
  isString v && lengthPositive v = isNonEmptyString v.
Proof.
  destruct v as [| | | | s | |]; try done.
  by destruct s.
Qed.

Lemma isNonEmptyString_string (v : value) :
  isNonEmptyString v = true → ∃ s, v = VString s ∧ s ≠ "".
Proof.
  destruct v as [| | | | s | |]; try done.
  destruct s; [done|]. intros _. eexists. split; [done|done].
Qed.

(** The plain reads of the second shape find what the tolerant reads
    found, whenever that was a string. *)
Lemma output_reads_agree (data : value) :
  isString (probe_step (probe_step data P_output) P_content) = true →
  member data P_output = Normal (probe_step data P_output) ∧
  member (probe_step data P_output) P_content
  = Normal (probe_step (probe_step data P_output) P_content).
Proof.
  intros Hs.
  pose proof (probe_step_string_base _ _ Hs) as Hout.
  assert (isNullish data = false) as Hdata.
  { destruct (isNullish data) eqn:E; [|done].
    by rewrite (probe_step_nullish data) in Hout. }
  split; by apply member_step.
Qed.

(** The [try] block computes the ordered search and completes normally. *)
Lemma extractAssistantText_try_search (data : value) :
  extractAssistantText_try data = Normal (orderedSearch data).
Proof.
  unfold extractAssistantText_try, orderedSearch.
  repeat (rewrite member_opt_step; simpl bind).
  cbn [SHAPES OPENAI_SHAPE OUTPUT_SHAPE NESTED_SHAPE map probe foldl firstNonEmptyString].
  rewrite !nonEmpty_split.
  set (a1 := probe_step (probe_step (probe_step (probe_step data P_choices) P_0) P_message) P_content).
  set (a3 := probe_step (probe_step (probe_step (probe_step (probe_step data P_data)
                P_choices) P_0) P_message) P_content).
  destruct (isNonEmptyString a1); [done|].
  destruct (isString (probe_step (probe_step data P_output) P_content)) eqn:Hstr.
  - destruct (output_reads_agree data Hstr) as [Hout Hcontent].
    rewrite !Hout. simpl bind. rewrite !Hcontent. simpl bind.
    set (a2 := probe_step (probe_step data P_output) P_content) in *.
    destruct a2 as [| | | | s | |]; try done.
    destruct s as [|c s]; simpl.
    + by destruct (isNonEmptyString a3).
    + done.
  - simpl bind.
    set (a2 := probe_step (probe_step data P_output) P_content) in *.
    assert (isNonEmptyString a2 = false) as ->.
    { by destruct a2. }
    by destruct (isNonEmptyString a3).
Qed.

Lemma extractAssistantText_search (data : value) :
  extractAssistantText data = orderedSearch data.
Proof.
  unfold extractAssistantText. by rewrite extractAssistantText_try_search.
Qed.

Lemma firstNonEmptyString_string (results : list value) :
  ∃ s, firstNonEmptyString results = VString s.
Proof.
  induction results as [|v rest IH]; simpl; [by eexists|].
  destruct (isNonEmptyString v) eqn:E; [|done].
  destruct (isNonEmptyString_string v E) as (s & -> & _). by eexists.
Qed.

Lemma firstNonEmptyString_none (results : list value) :
  Forall (fun v => isNonEmptyString v = false) results →
  firstNonEmptyString results = VString "".
Proof.
  induction 1 as [|v rest Hv _ IH]; simpl; [done|]. by rewrite Hv.
Qed.

End ExtractorFacts.

(** ** Literal replacement and the normalizer *)

Section NormalizerFacts.
Import Normalizer.

Lemma startsWith_app (pat t : string) : startsWith (pat +:+ t) pat = true.
Proof.
  induction pat as [|p pat IH]; simpl; [done|].
  by rewrite Ascii.eqb_refl.
Qed.

Lemma length_app (u t : string) :
  String.length (u +:+ t) = (String.length u + String.length t)%nat.
Proof.
  induction u as [|c u IH]; [done|].
  change (String c u +:+ t) with (String c (u +:+ t)). simpl. by rewrite IH.
Qed.

Lemma startsWith_cons (c p : ascii) (s pat : string) :
  startsWith (String c s) (String p pat) = Ascii.eqb c p && startsWith s pat.
Proof. reflexivity. Qed.

Lemma startsWith_inv (s pat : string) :
  startsWith s pat = true → ∃ t, s = pat +:+ t.
Proof.
  revert s. induction pat as [|p pat IH]; intros s; simpl.
  - intros _. by exists s.
  - destruct s as [|c s]; [done|].
    intros [Hc Hs]%andb_prop.
    apply Ascii.eqb_eq in Hc as ->.
    destruct (IH s Hs) as [t ->]. by exists t.
Qed.

Lemma replace_from_skip (pat rep u t : string) :
  replace_from pat rep (String.length u) (u +:+ t) = replace_from pat rep 0 t.
Proof.
  induction u as [|c u IH]; simpl; [|done].
  by destruct t.
Qed.

(** At a match the replacement is emitted and the scan resumes after it. *)
Lemma replaceAll_match (p : ascii) (pat rep t : string) :
  replaceAll (String p pat) rep (String p pat +:+ t)
  = rep +:+ replaceAll (String p pat) rep t.
Proof.
  unfold replaceAll.
  change (String p pat +:+ t) with (String p (pat +:+ t)).
  cbn [replace_from].
  change (String p (pat +:+ t)) with (String p pat +:+ t).
  rewrite startsWith_app.
  replace (String.length (String p pat) - 1)%nat with (String.length pat)
    by (simpl; lia).
  by rewrite replace_from_skip.
Qed.

(** Elsewhere the character is kept. *)
Lemma replaceAll_keep (pat rep : string) (c : ascii) (s : string) :
  startsWith (String c s) pat = false →
  replaceAll pat rep (String c s) = String c (replaceAll pat rep s).
Proof.
  unfold replaceAll. cbn [replace_from]. by intros ->.
Qed.

(** The first character of the result: a replacement does not put
    character [x] in front unless it was there. *)
Lemma replaceAll_head (p r x : ascii) (pat rep s : string) :
  x ≠ p → x ≠ r →
  startsWith (replaceAll (String p pat) (String r rep) s) (String x "")
  = startsWith s (String x "").
Proof.
  intros Hp Hr. destruct s as [|c s]; [done|].
  destruct (startsWith (String c s) (String p pat)) eqn:E.
  - destruct (startsWith_inv _ _ E) as [t Ht]. rewrite Ht.
    rewrite replaceAll_match. simpl.
    rewrite !andb_true_r.
    transitivity false; [|symmetry]; apply Ascii.eqb_neq; congruence.
  - by rewrite replaceAll_keep.
Qed.

Lemma normalize_crlf (t : string) :
  normalize (RE_CRLF +:+ t) = String LF (normalize t).
Proof. reflexivity. Qed.

Lemma normalize_n (t : string) :
  normalize (RE_N +:+ t) = String LF (normalize t).
Proof. reflexivity. Qed.

Lemma normalize_t (t : string) :
  normalize (RE_T +:+ t) = FOUR_SPACES +:+ normalize t.
Proof. reflexivity. Qed.

Lemma normalize_keep (c : ascii) (s : string) :
  startsWith (String c s) RE_CRLF = false →
  startsWith (String c s) RE_N = false →
  startsWith (String c s) RE_T = false →
  normalize (String c s) = String c (normalize s).
Proof.
  unfold normalize. cbn [normalize_from]. by intros -> -> ->.
Qed.

Lemma NEWLINE_app (x : string) : NEWLINE +:+ x = String LF x.
Proof. reflexivity. Qed.

(** The three replacements commute with the single pass, case by case. *)
Lemma unescapeString_crlf (t : string) :
  unescapeString (RE_CRLF +:+ t) = String LF (unescapeString t).
Proof.
  unfold unescapeString, RE_CRLF, RE_N, RE_T.
  rewrite (replaceAll_match "\" "r\n" NEWLINE t), NEWLINE_app.
  by rewrite !replaceAll_keep.
Qed.

Lemma unescapeString_n (t : string) :
  unescapeString (RE_N +:+ t) = String LF (unescapeString t).
Proof.
  unfold unescapeString, RE_CRLF, RE_N, RE_T.
  change ("\n" +:+ t) with (String "\" (String "n" t)).
  rewrite !(replaceAll_keep "\r\n") by done.
  rewrite (replaceAll_match "\" "n" NEWLINE (replaceAll "\r\n" NEWLINE t)
           : replaceAll "\n" NEWLINE (String "\" (String "n" _)) = _).
  rewrite NEWLINE_app.
  by rewrite !replaceAll_keep.
Qed.

Lemma unescapeString_t (t : string) :
  unescapeString (RE_T +:+ t) = FOUR_SPACES +:+ unescapeString t.
Proof.
  unfold unescapeString, RE_CRLF, RE_N, RE_T.
  change ("\t" +:+ t) with (String "\" (String "t" t)).
  rewrite !(replaceAll_keep "\r\n") by done.
  rewrite !(replaceAll_keep "\n") by done.
  exact (replaceAll_match "\" "t" FOUR_SPACES
           (replaceAll "\n" NEWLINE (replaceAll "\r\n" NEWLINE t))).
Qed.

Lemma unescapeString_keep (c : ascii) (s : string) :
  startsWith (String c s) RE_CRLF = false →
  startsWith (String c s) RE_N = false →
  startsWith (String c s) RE_T = false →
  unescapeString (String c s) = String c (unescapeString s).
Proof.
  unfold unescapeString, RE_CRLF, RE_N, RE_T, NEWLINE. intros H1 H2 H3.
  rewrite (replaceAll_keep "\r\n") by done.
  rewrite (replaceAll_keep "\n").
  - rewrite (replaceAll_keep "\t"); [done|].
    revert H3. rewrite !(startsWith_cons c "\").
    by rewrite !(replaceAll_head "\" LF "t").
  - revert H2. rewrite !(startsWith_cons c "\").
    by rewrite (replaceAll_head "\" LF "n").
Qed.

(** The source's chain of replacements is the single pass. *)
Lemma unescapeString_normalize (s : string) :
  unescapeString s = normalize s.
Proof.
  remember (String.length s) as n eqn:Hn.
  revert s Hn. induction (lt_wf n) as [n _ IH]. intros s ->.
  destruct s as [|c s]; [done|].
  destruct (startsWith (String c s) RE_CRLF) eqn:E1.
  { destruct (startsWith_inv _ _ E1) as [t Ht]. rewrite Ht.
    rewrite unescapeString_crlf, normalize_crlf. f_equal.
    eapply IH; [|done]. rewrite Ht, length_app. unfold RE_CRLF. simpl. lia. }
  destruct (startsWith (String c s) RE_N) eqn:E2.
  { destruct (startsWith_inv _ _ E2) as [t Ht]. rewrite Ht.
    rewrite unescapeString_n, normalize_n. f_equal.
    eapply IH; [|done]. rewrite Ht, length_app. unfold RE_N. simpl. lia. }
  destruct (startsWith (String c s) RE_T) eqn:E3.
  { destruct (startsWith_inv _ _ E3) as [t Ht]. rewrite Ht.
    rewrite unescapeString_t, normalize_t. f_equal.
    eapply IH; [|done]. rewrite Ht, length_app. unfold RE_T. simpl. lia. }
  rewrite unescapeString_keep, normalize_keep by done. f_equal.
  eapply IH; [|done]. simpl. lia.
Qed.

Lemma app_cons (c : ascii) (u t : string) : String c u +:+ t = String c (u +:+ t).
Proof. reflexivity. Qed.

Lemma app_empty_l (t : string) : "" +:+ t = t.
Proof. reflexivity. Qed.

Lemma app_assoc_string (u v w : string) : (u +:+ v) +:+ w = u +:+ (v +:+ w).
Proof.
  induction u as [|c u IH]; [done|].
  by rewrite !app_cons, IH.
Qed.

Lemma unescape_of_string (s : string) :
  unescapeNewlinesAndTabs (VString s) = Normal (unescapeString s).
Proof. by destruct s. Qed.

Lemma includes_cons (c : ascii) (s pat : string) :
  includes (String c s) pat = startsWith (String c s) pat || includes s pat.
Proof. reflexivity. Qed.

(** With no literal escape sequence in it, a text is left as it is. *)
Lemma normalize_escapeFree (s : string) :
  escapeFree s → normalize s = s.
Proof.
  unfold escapeFree. induction s as [|c s IH]; [done|].
  rewrite !includes_cons.
  intros ([H1 H1']%orb_false_elim & [H2 H2']%orb_false_elim & [H3 H3']%orb_false_elim).
  rewrite normalize_keep by done. f_equal. by apply IH.
Qed.

(** *** Cutting the scan in front of a backslash *)

(** No match straddles a cut in front of a backslash that does not start
    a literal backslash-n. *)
Lemma startsWith_cut (c : ascii) (p q pat : string) :
  pat = RE_CRLF ∨ pat = RE_N ∨ pat = RE_T →
  startsWith q "\" = true → startsWith q RE_N = false →
  startsWith (String c p +:+ q) pat = startsWith (String c p) pat.
Proof.
  intros Hpat Hq Hn.
  destruct (startsWith_inv _ _ Hq) as [q' ->].
  change ("\" +:+ q') with (String "\" q') in *.
  unfold RE_N in Hn. rewrite startsWith_cons in Hn. simpl in Hn.
  destruct Hpat as [-> | [-> | ->]].
  - destruct p as [|c2 [|c3 [|c4 p]]]; rewrite !app_cons, ?app_empty_l;
      simpl; rewrite ?Hn; done.
  - destruct p as [|c2 p]; rewrite !app_cons, ?app_empty_l; done.
  - destruct p as [|c2 p]; rewrite !app_cons, ?app_empty_l; done.
Qed.

Lemma normalize_cut (p q : string) :
  startsWith q "\" = true → startsWith q RE_N = false →
  normalize (p +:+ q) = normalize p +:+ normalize q.
Proof.
  intros Hq Hn.
  remember (String.length p) as n eqn:Hlen.
  revert p Hlen. induction (lt_wf n) as [n _ IH]. intros p ->.
  destruct p as [|c p]; [done|].
  destruct (startsWith (String c p) RE_CRLF) eqn:E1.
  { destruct (startsWith_inv _ _ E1) as [t Ht]. rewrite Ht.
    rewrite app_assoc_string, !normalize_crlf, app_cons. f_equal.
    eapply IH; [|done]. rewrite Ht, length_app. unfold RE_CRLF. simpl. lia. }
  destruct (startsWith (String c p) RE_N) eqn:E2.
  { destruct (startsWith_inv _ _ E2) as [t Ht]. rewrite Ht.
    rewrite app_assoc_string, !normalize_n, app_cons. f_equal.
    eapply IH; [|done]. rewrite Ht, length_app. unfold RE_N. simpl. lia. }
  destruct (startsWith (String c p) RE_T) eqn:E3.
  { destruct (startsWith_inv _ _ E3) as [t Ht]. rewrite Ht.
    rewrite app_assoc_string, !normalize_t, app_assoc_string. f_equal.
    eapply IH; [|done]. rewrite Ht, length_app. unfold RE_T. simpl. lia. }
  rewrite (normalize_keep c p) by done.
  rewrite app_cons at 1. rewrite app_cons.
  rewrite normalize_keep.
  - f_equal. eapply IH; [|done]. simpl. lia.
  - rewrite <- app_cons. rewrite startsWith_cut; eauto.
  - rewrite <- app_cons. rewrite startsWith_cut; eauto.
  - rewrite <- app_cons. rewrite startsWith_cut; eauto.
Qed.

End NormalizerFacts.

(** ** The response extractor: priority and tolerance *)

Section ExtractorClaims.
Import Extractor Samples.

(** C1. For every parsed value, [extractAssistantText] returns the first
    non-empty string among the three probes [choices[0].message.content],
    [output.content], [data.choices[0].message.content], taken in this
    order, and the empty string when no probe yields one; in particular a
    value with ["A"] at the first path and ["B"] at the second gives
    ["A"]. *)
Theorem extractAssistantText_first_match (data : value) :
  extractAssistantText data
  = firstNonEmptyString
      [probe [P_choices; P_0; P_message; P_content] data;
       probe [P_output; P_content] data;
       probe [P_data; P_choices; P_0; P_message; P_content] data]
  ∧ (probe [P_choices; P_0; P_message; P_content] data = VString "A" →
     probe [P_output; P_content] data = VString "B" →
     extractAssistantText data = VString "A").
Proof.
  split.
  - by rewrite extractAssistantText_search.
  - intros HA _. rewrite extractAssistantText_search.
    unfold orderedSearch, SHAPES, OPENAI_SHAPE. cbn [map].
    by rewrite HA.
Qed.

Lemma extractAssistantText_first_match_witness :
  probe [P_choices; P_0; P_message; P_content] both_shapes = VString "A"
  ∧ probe [P_output; P_content] both_shapes = VString "B"
  ∧ extractAssistantText both_shapes = VString "A".
Proof.
  split; [vm_compute; reflexivity|].
  split; [vm_compute; reflexivity|].
  apply (extractAssistantText_first_match both_shapes); vm_compute; reflexivity.
Defined.

(** C2. [extractAssistantText] never raises: on every value the [try]
    block completes normally with a string, which is the result; when no
    known shape matches the result is the empty string, as on the empty
    object, on [null] fields, on non-objects, on fields of the wrong type
    and on arrays too short. *)
Theorem extractAssistantText_total :
  (∀ data, ∃ s, extractAssistantText_try data = Normal (VString s)
                ∧ extractAssistantText data = VString s)
  ∧ (∀ data, Forall (fun path => isNonEmptyString (probe path data) = false) SHAPES →
             extractAssistantText data = VString "")
  ∧ Forall (fun data => extractAssistantText data = VString "") tolerance_samples.
Proof.
  split; [|split].
  - intros data.
    destruct (firstNonEmptyString_string (map (fun path => probe path data) SHAPES))
      as [s Hs].
    exists s. rewrite extractAssistantText_search, extractAssistantText_try_search.
    unfold orderedSearch. by rewrite Hs.
  - intros data Hnone. rewrite extractAssistantText_search. unfold orderedSearch.
    apply firstNonEmptyString_none. by apply Forall_fmap.
  - unfold tolerance_samples. repeat constructor; vm_compute; reflexivity.
Qed.

Lemma extractAssistantText_total_witness :
  extractAssistantText (obj nil) = VString "".
Proof.
  apply (proj1 (proj2 extractAssistantText_total) (obj nil)).
  repeat constructor; vm_compute; reflexivity.
Defined.

End ExtractorClaims.

(** ** The request builder *)

Section RequestClaims.
Import Request.

(** C3. For every prompt [P], the empty one included, the payload names
    the model ["deepseek-chat"] and carries exactly two messages: the
    system message with the fixed instruction, then the user message
    whose content is [P] itself. *)
Theorem requestPayload_shape (P : string) :
  model (requestPayload P) = "deepseek-chat"
  ∧ length (messages (requestPayload P)) = 2%nat
  ∧ messages (requestPayload P)
    = [ {| role := system; content := "You are a helpful assistant." |};
        {| role := user; content := P |} ]
  ∧ messages (requestPayload "")
    = [ {| role := system; content := "You are a helpful assistant." |};
        {| role := user; content := "" |} ].
Proof. by repeat split. Qed.

End RequestClaims.

(** ** The escape normalizer *)

Section NormalizerClaims.
Import Normalizer.

(** C4. [unescapeNewlinesAndTabs] maps [null], [undefined] and the empty
    string to the empty string; on a string it replaces every literal
    backslash-r-backslash-n and backslash-n by one newline and every
    literal backslash-t by four spaces; and it leaves unchanged, also
    when applied twice, every string that contains none of these literal
    sequences. *)
Theorem unescapeNewlinesAndTabs_contract :
  unescapeNewlinesAndTabs VNull = Normal ""
  ∧ unescapeNewlinesAndTabs VUndefined = Normal ""
  ∧ unescapeNewlinesAndTabs (VString "") = Normal ""
  ∧ (∀ s, unescapeNewlinesAndTabs (VString s) = Normal (normalize s))
  ∧ unescapeNewlinesAndTabs (VString "a\nb") = Normal (String "a" (String LF "b"))
  ∧ unescapeNewlinesAndTabs (VString "a\r\nb") = Normal (String "a" (String LF "b"))
  ∧ unescapeNewlinesAndTabs (VString "a\tb") = Normal "a    b"
  ∧ (∀ s, escapeFree s →
          unescapeNewlinesAndTabs (VString s) = Normal s
          ∧ (let* once := unescapeNewlinesAndTabs (VString s) in
             unescapeNewlinesAndTabs (VString once)) = Normal s).
Proof.
  repeat split; try done.
  - intros s. by rewrite unescape_of_string, unescapeString_normalize.
  - rewrite unescape_of_string, unescapeString_normalize.
    by rewrite normalize_escapeFree.
  - rewrite unescape_of_string, unescapeString_normalize.
    rewrite normalize_escapeFree by done. simpl.
    rewrite unescape_of_string, unescapeString_normalize.
    by rewrite normalize_escapeFree.
Qed.

Lemma unescapeNewlinesAndTabs_contract_witness :
  unescapeNewlinesAndTabs (VString "plain \ text") = Normal "plain \ text".
Proof.
  apply (proj2 (proj2 (proj2 (proj2 (proj2 (proj2 (proj2
           unescapeNewlinesAndTabs_contract)))))) "plain \ text").
  repeat split; vm_compute; reflexivity.
Defined.

(** C10. The replacements take no account of a preceding backslash: a
    literal backslash-n that follows a backslash becomes a newline all
    the same, so [a], backslash, backslash, [n], [b] gives [a],
    backslash, newline, [b]. *)
Theorem unescape_ignores_preceding_backslash :
  unescapeNewlinesAndTabs (VString "a\\nb")
  = Normal (String "a" (String "\" (String LF "b")))
  ∧ ∀ before after,
      unescapeString (before +:+ "\\n" +:+ after)
      = unescapeString (before +:+ "\") +:+ NEWLINE +:+ unescapeString after.
Proof.
  split; [done|].
  intros before after. rewrite !unescapeString_normalize.
  rewrite (normalize_cut before ("\\n" +:+ after)) by done.
  rewrite (normalize_cut before "\") by done.
  by rewrite app_assoc_string.
Qed.

End NormalizerClaims.

(** ** The session *)

Section SessionFacts.
Import Request Extractor Normalizer Session.

Lemma includes_startsWith (s pat : string) :
  startsWith s pat = true → includes s pat = true.
Proof.
  intros H. destruct s; simpl; by rewrite H.
Qed.

Lemma includes_app_r (u t pat : string) :
  includes t pat = true → includes (u +:+ t) pat = true.
Proof.
  intros H. induction u as [|c u IH]; [done|].
  rewrite app_cons, includes_cons, IH. apply orb_true_r.
Qed.

Lemma contains_middle (pre needle post : string) :
  contains (pre +:+ needle +:+ post) needle.
Proof.
  apply includes_app_r, includes_startsWith, startsWith_app.
Qed.

Lemma app_empty_r (t : string) : t +:+ "" = t.
Proof.
  induction t as [|c t IH]; [done|]. by rewrite app_cons, IH.
Qed.

Lemma contains_end (pre needle : string) : contains (pre +:+ needle) needle.
Proof.
  rewrite <- (app_empty_r needle) at 1. apply contains_middle.
Qed.

(** Before the call settles: the session is cleared and loading. *)
Lemma handleSend_begin_state (st : state) :
  fst (handleSend_begin st)
  = {| prompt := prompt st; assistantText := VString ""; loading := true;
       error := None; rawResponse := VNull; responseView := responseView st |}.
Proof. reflexivity. Qed.

Lemma handleSend_begin_request (st : state) :
  snd (handleSend_begin st)
  = {| url := "/qwen-api/deepseek/single-prompt"; method := "POST";
       headers := [("Content-Type", "application/json")];
       body := requestPayload (prompt st);
       abort_after_ms := 120000 |}.
Proof. reflexivity. Qed.

Lemma handleSend_unfold (net : network) (st : state) :
  handleSend net st
  = handleSend_resume (fetch_result (snd (handleSend_begin st)) net)
      (fst (handleSend_begin st)).
Proof. reflexivity. Qed.

Lemma fetch_result_settled (rq : request) (net : network) (reply : completion response) :
  settledBy (abort_after_ms rq) net = Some reply → fetch_result rq net = reply.
Proof. unfold fetch_result. by intros ->. Qed.

Lemma fetch_result_aborted (rq : request) (net : network) :
  settledBy (abort_after_ms rq) net = None → fetch_result rq net = Throw AbortError.
Proof. unfold fetch_result. by intros ->. Qed.

(** [finally] always ends the loading. *)
Lemma handleSend_resume_loading (reply : completion response) (st : state) :
  loading (handleSend_resume reply st) = false.
Proof.
  unfold handleSend_resume. by destruct (handleSend_try reply st) as [[]].
Qed.

(** Whatever is not a non-empty string normalizes to the empty string,
    through the falsy branch or through the [catch]. *)
Lemma unescape_not_string (v : value) :
  isNonEmptyString v = false →
  try_catch (unescapeNewlinesAndTabs v) (fun _ => "") = "".
Proof.
  destruct v as [| |b|x|s|l|m]; try done.
  - by destruct b.
  - intros _. unfold unescapeNewlinesAndTabs. simpl.
    by destruct (PrimFloat.is_zero x || PrimFloat.is_nan x).
  - by destruct s.
Qed.

Lemma outputContentUnescaped_probe (raw : value) :
  outputContentUnescaped raw
  = try_catch (unescapeNewlinesAndTabs (probe OUTPUT_SHAPE raw)) (fun _ => "").
Proof.
  unfold outputContentUnescaped.
  by repeat (rewrite member_opt_step; simpl bind).
Qed.

(** Every event preserves [singleFlight]. *)
Lemma step_singleFlight (w : world) (ev : event) :
  singleFlight w → singleFlight (step w ev).
Proof.
  unfold singleFlight. intros Inv. destruct ev as [|p|checked|net]; simpl.
  - unfold sendDisabled.
    destruct Inv as [[Hq Hl] | (rq & Hq & Hl)]; rewrite Hl; simpl.
    + destruct (negb _); [by left|].
      right. eexists. rewrite Hq. by split.
    + right. by exists rq.
  - done.
  - done.
  - destruct Inv as [[Hq Hl] | (rq & Hq & Hl)]; rewrite Hq.
    + by left.
    + left. split; [done|]. apply handleSend_resume_loading.
Qed.

Lemma run_singleFlight (evs : list event) (w : world) :
  singleFlight w → singleFlight (run w evs).
Proof.
  revert w. induction evs as [|ev evs IH]; intros w Inv; [done|].
  apply IH, step_singleFlight, Inv.
Qed.

Lemma start_singleFlight : singleFlight start.
Proof. by left. Qed.


Lemma settledBy_in_time (deadline elapsed : Z) (reply : completion response) :
  elapsed ≤ deadline → settledBy deadline (Settles elapsed reply) = Some reply.
Proof.
  intros H. unfold settledBy. by rewrite (proj2 (Z.leb_le elapsed deadline)).
Qed.

Lemma settledBy_late (deadline elapsed : Z) (reply : completion response) :
  deadline < elapsed → settledBy deadline (Settles elapsed reply) = None.
Proof.
  intros H. unfold settledBy. by rewrite (proj2 (Z.leb_gt elapsed deadline)).
Qed.

End SessionFacts.

Section SessionClaims.
Import Request Extractor Normalizer Session Samples.

(** C5, as stated, fails: for the reply
    [{choices: [{message: {content: "Hi there"}}]}] the extracted text is
    ["Hi there"], but the content rendering shows the placeholder. *)
Lemma contentRendering_not_extracted_text :
  extractAssistantText hi_there = VString "Hi there"
  ∧ extractedTextRendering hi_there = "Hi there"
  ∧ contentRendering hi_there = DASH
  ∧ contentRendering hi_there ≠ extractedTextRendering hi_there.
Proof.
  repeat split; try (vm_compute; reflexivity).
  intros H. vm_compute in H. discriminate H.
Qed.

(** C5, amended. For every stored raw response the content rendering is
    the normalization of the response's [output.content] alone, the
    second shape of the extractor, with the placeholder when that is
    empty or no string. It is the normalized extracted text whenever
    [choices[0].message.content] is no non-empty string and either
    [output.content] is one or [data.choices[0].message.content] is
    none. *)
Theorem contentRendering_output_content (raw : value) :
  contentRendering raw
  = orDash (try_catch (unescapeNewlinesAndTabs (probe [P_output; P_content] raw))
              (fun _ => ""))
  ∧ (isNonEmptyString (probe [P_choices; P_0; P_message; P_content] raw) = false →
     isNonEmptyString (probe [P_output; P_content] raw) = true
     ∨ isNonEmptyString (probe [P_data; P_choices; P_0; P_message; P_content] raw) = false →
     contentRendering raw
     = orDash (try_catch (unescapeNewlinesAndTabs (extractAssistantText raw))
                 (fun _ => ""))).
Proof.
  unfold contentRendering. rewrite outputContentUnescaped_probe.
  split; [done|].
  intros H1 H23. rewrite extractAssistantText_search.
  unfold orderedSearch, SHAPES, OPENAI_SHAPE, OUTPUT_SHAPE, NESTED_SHAPE.
  cbn [map firstNonEmptyString]. rewrite H1.
  destruct (isNonEmptyString (probe [P_output; P_content] raw)) eqn:H2; [done|].
  destruct H23 as [|H3]; [done|]. rewrite H3.
  by rewrite unescape_not_string.
Qed.

Lemma contentRendering_output_content_witness :
  contentRendering (output_reply (VString "one\ntwo"))
  = orDash (try_catch
              (unescapeNewlinesAndTabs
                 (extractAssistantText (output_reply (VString "one\ntwo"))))
              (fun _ => "")).
Proof.
  apply (contentRendering_output_content (output_reply (VString "one\ntwo"))).
  - vm_compute; reflexivity.
  - left. vm_compute; reflexivity.
Defined.

(** C6. When no response arrives within the deadline of 120000 ms after
    a send, the call is aborted and the session fails with a message
    that carries the timeout in seconds, [120]. *)
Theorem handleSend_timeout (st : state) (net : network) :
  (net = Silent ∨ ∃ elapsed reply, net = Settles elapsed reply ∧ 120000 < elapsed) →
  abort_after_ms (snd (handleSend_begin st)) = 120000
  ∧ fetch_result (snd (handleSend_begin st)) net
    = Throw (DOMException "AbortError" "The operation was aborted.")
  ∧ failedWith (handleSend net st) "Request timed out after 120s"
  ∧ contains "Request timed out after 120s" "120"
  ∧ rawResponse (handleSend net st) = VNull.
Proof.
  intros Hlate.
  assert (settledBy 120000 net = None) as Hnone.
  { destruct Hlate as [-> | (elapsed & reply & -> & Hlt)]; [done|].
    by apply settledBy_late. }
  assert (fetch_result (snd (handleSend_begin st)) net = Throw AbortError) as Habort.
  { by apply fetch_result_aborted. }
  split; [done|]. split; [done|].
  rewrite handleSend_unfold, Habort.
  repeat split; vm_compute; reflexivity.
Qed.

Lemma handleSend_timeout_witness :
  failedWith (handleSend Silent hello) "Request timed out after 120s"
  ∧ failedWith (handleSend (Settles 120001 (Normal hi_there_response)) hello)
      "Request timed out after 120s".
Proof.
  split.
  - apply (handleSend_timeout hello Silent). left. reflexivity.
  - apply (handleSend_timeout hello (Settles 120001 (Normal hi_there_response))).
    right. exists 120001, (Normal hi_there_response). split; [reflexivity|lia].
Defined.

(** C7. When the server answers with a non-success status, the session
    fails with a message that contains the status code and the raw body
    text; HTTP 500 with body [server error] gives a message containing
    [500] and [server error]. *)
Theorem handleSend_http_error (st : state) (elapsed : Z) (r : response) (body_text : string) :
  elapsed ≤ 120000 → ok r = false → text r = Normal body_text →
  failedWith (handleSend (Settles elapsed (Normal r)) st)
    ("HTTP " +:+ pretty (status r) +:+ ": " +:+ body_text)
  ∧ contains ("HTTP " +:+ pretty (status r) +:+ ": " +:+ body_text) (pretty (status r))
  ∧ contains ("HTTP " +:+ pretty (status r) +:+ ": " +:+ body_text) body_text
  ∧ rawResponse (handleSend (Settles elapsed (Normal r)) st) = VNull.
Proof.
  intros Hin Hok Htext.
  rewrite handleSend_unfold.
  rewrite (fetch_result_settled _ _ (Normal r)) by (by apply settledBy_in_time).
  unfold handleSend_resume, handleSend_try. rewrite Hok, Htext. simpl.
  repeat split.
  - apply (contains_middle "HTTP ").
  - rewrite <- (app_assoc_string "HTTP "), <- app_assoc_string.
    apply contains_end.
Qed.

Lemma handleSend_http_error_witness :
  failedWith (handleSend (Settles 10 (Normal server_error)) hello) "HTTP 500: server error"
  ∧ contains "HTTP 500: server error" "500"
  ∧ contains "HTTP 500: server error" "server error".
Proof.
  destruct (handleSend_http_error hello 10 server_error "server error")
    as (Hfailed & Hcode & Hbody & _); [lia | reflexivity | reflexivity |].
  split; [exact Hfailed|]. split; [exact Hcode|exact Hbody].
Defined.

(** C8, as stated, fails: when the body of a success response is not
    valid JSON, the session fails with the parser's message and no raw
    body is stored, so the JSON view shows the placeholder. *)
Lemma not_json_is_an_error :
  error (handleSend (Settles 10 (Normal not_json)) hello)
  = Some "Unexpected token '<', '<html>busy</html>' is not valid JSON"
  ∧ error (handleSend (Settles 10 (Normal not_json)) hello) ≠ None
  ∧ rawResponse (handleSend (Settles 10 (Normal not_json)) hello) = VNull
  ∧ responseJsonString (rawResponse (handleSend (Settles 10 (Normal not_json)) hello))
    = Text DASH.
Proof.
  repeat split; try (vm_compute; reflexivity).
  vm_compute. discriminate.
Qed.

(** C8, amended. When the body of a success response is valid JSON of
    no known shape, no error is raised: the extracted text is the empty
    string and the parsed body is stored, and shown by the JSON view when
    it is truthy. When the body is not valid JSON, the failure of the
    parse is caught like any other: the session fails with the parser's
    message and no raw body is stored. *)
Theorem handleSend_malformed (st : state) (elapsed : Z) (r : response) :
  elapsed ≤ 120000 → ok r = true →
  (∀ data, json r = Normal data →
     Forall (fun path => isNonEmptyString (probe path data) = false) SHAPES →
     error (handleSend (Settles elapsed (Normal r)) st) = None
     ∧ loading (handleSend (Settles elapsed (Normal r)) st) = false
     ∧ assistantText (handleSend (Settles elapsed (Normal r)) st) = VString ""
     ∧ rawResponse (handleSend (Settles elapsed (Normal r)) st) = data
     ∧ (truthy data = true →
        responseJsonString (rawResponse (handleSend (Settles elapsed (Normal r)) st))
        = PrettyJson data))
  ∧ (∀ name message, json r = Throw (Error name message) →
     failedWith (handleSend (Settles elapsed (Normal r)) st) message
     ∧ assistantText (handleSend (Settles elapsed (Normal r)) st) = VString ""
     ∧ rawResponse (handleSend (Settles elapsed (Normal r)) st) = VNull
     ∧ responseJsonString (rawResponse (handleSend (Settles elapsed (Normal r)) st))
       = Text DASH).
Proof.
  intros Hin Hok.
  rewrite handleSend_unfold.
  rewrite (fetch_result_settled _ _ (Normal r)) by (by apply settledBy_in_time).
  unfold handleSend_resume, handleSend_try. rewrite Hok. simpl.
  split.
  - intros data -> Hnone. simpl.
    assert (extractAssistantText data = VString "") as ->.
    { rewrite extractAssistantText_search. unfold orderedSearch.
      apply firstNonEmptyString_none. by apply Forall_fmap. }
    repeat split. unfold responseJsonString. by intros ->.
  - by intros name message ->.
Qed.

Lemma handleSend_malformed_witness :
  (error (handleSend (Settles 10 (Normal unknown_shape)) hello) = None
   ∧ rawResponse (handleSend (Settles 10 (Normal unknown_shape)) hello)
     = obj [("result", VString "x")])
  ∧ failedWith (handleSend (Settles 10 (Normal not_json)) hello)
      "Unexpected token '<', '<html>busy</html>' is not valid JSON".
Proof.
  split.
  - destruct (handleSend_malformed hello 10 unknown_shape) as [Hshape _];
      [lia | reflexivity |].
    destruct (Hshape (obj [("result", VString "x")])) as (Herr & _ & _ & Hraw & _);
      [reflexivity | repeat constructor; vm_compute; reflexivity |].
    split; [exact Herr | exact Hraw].
  - destruct (handleSend_malformed hello 10 not_json) as [_ Hparse];
      [lia | reflexivity |].
    destruct (Hparse "SyntaxError" "Unexpected token '<', '<html>busy</html>' is not valid JSON")
      as (Hfailed & _); [reflexivity | exact Hfailed].
Defined.

(** C9. At most one request is in flight at any time; while one is
    pending the send button is disabled, and a click is a no-op: the
    state is unchanged and no second call is made. *)
Theorem single_flight (evs : list event) :
  (length (inflight (run start evs)) ≤ 1)%nat
  ∧ (inflight (run start evs) ≠ [] →
     loading (ui (run start evs)) = true
     ∧ sendDisabled (ui (run start evs)) = true
     ∧ step (run start evs) ClickSend = run start evs)
  ∧ (∀ w, loading (ui w) = true → step w ClickSend = w).
Proof.
  assert (∀ w, loading (ui w) = true → step w ClickSend = w) as Hnoop.
  { intros w Hl. simpl. unfold sendDisabled. by rewrite Hl. }
  destruct (run_singleFlight evs start start_singleFlight)
    as [[Hq Hl] | (rq & Hq & Hl)].
  - rewrite Hq. repeat split; [simpl; lia | done | done | done | done].
  - rewrite Hq. repeat split; [simpl; lia | done | | by apply Hnoop | done].
    unfold sendDisabled. by rewrite Hl.
Qed.

Lemma single_flight_witness :
  step (run start [ChangePrompt "Hello"; ClickSend]) ClickSend
  = run start [ChangePrompt "Hello"; ClickSend].
Proof.
  destruct (single_flight [ChangePrompt "Hello"; ClickSend]) as (_ & Hpending & _).
  apply Hpending. vm_compute. discriminate.
Defined.

(** End-to-end scenario 1 of the specification. *)
Example scenario_hi_there :
  assistantText (handleSend (Settles 10 (Normal hi_there_response)) hello) = VString "Hi there"
  ∧ error (handleSend (Settles 10 (Normal hi_there_response)) hello) = None
  ∧ loading (handleSend (Settles 10 (Normal hi_there_response)) hello) = false.
Proof. repeat split; vm_compute; reflexivity. Qed.

End SessionClaims.

(** * Further properties *)

(** ** The normalizer: what its result looks like *)

Section NormalizerMore.
Import Normalizer.

(** Case analysis on the head of the scan. *)
Lemma normalize_cases (s : string) :
  s = ""
  ∨ (∃ t, s = RE_CRLF +:+ t ∧ normalize s = String LF (normalize t))
  ∨ (∃ t, s = RE_N +:+ t ∧ normalize s = String LF (normalize t))
  ∨ (∃ t, s = RE_T +:+ t ∧ normalize s = FOUR_SPACES +:+ normalize t)
  ∨ (∃ c t, s = String c t ∧ normalize s = String c (normalize t)
            ∧ startsWith s RE_CRLF = false
            ∧ startsWith s RE_N = false
            ∧ startsWith s RE_T = false).
Proof.
  destruct s as [|c s]; [by left|right].
  destruct (startsWith (String c s) RE_CRLF) eqn:E1.
  { destruct (startsWith_inv _ _ E1) as [t Ht]. left. exists t. by rewrite Ht. }
  right.
  destruct (startsWith (String c s) RE_N) eqn:E2.
  { destruct (startsWith_inv _ _ E2) as [t Ht]. left. exists t. by rewrite Ht. }
  right.
  destruct (startsWith (String c s) RE_T) eqn:E3.
  { destruct (startsWith_inv _ _ E3) as [t Ht]. left. exists t. by rewrite Ht. }
  right. exists c, s. by rewrite normalize_keep.
Qed.

(** Induction along the scan. *)
Lemma normalize_ind (P : string → Prop) :
  P "" →
  (∀ t, P t → P (RE_CRLF +:+ t)) →
  (∀ t, P t → P (RE_N +:+ t)) →
  (∀ t, P t → P (RE_T +:+ t)) →
  (∀ c t, startsWith (String c t) RE_CRLF = false →
          startsWith (String c t) RE_N = false →
          startsWith (String c t) RE_T = false →
          P t → P (String c t)) →
  ∀ s, P s.
Proof.
  intros H0 Hcrlf Hn Ht Hkeep s.
  remember (String.length s) as n eqn:Hlen.
  revert s Hlen. induction (lt_wf n) as [n _ IH]. intros s ->.
  destruct (normalize_cases s)
    as [-> | [(t & -> & _) | [(t & -> & _) | [(t & -> & _) | (c & t & -> & _ & E1 & E2 & E3)]]]].
  - done.
  - apply Hcrlf. eapply IH; [|done]. rewrite length_app. unfold RE_CRLF. simpl. lia.
  - apply Hn. eapply IH; [|done]. rewrite length_app. unfold RE_N. simpl. lia.
  - apply Ht. eapply IH; [|done]. rewrite length_app. unfold RE_T. simpl. lia.
  - apply Hkeep; try done. eapply IH; [|done]. simpl. lia.
Qed.

(** The first character of the result is a newline, a space, or the
    first character of the text. *)
Lemma normalize_head (x : ascii) (s : string) :
  x ≠ "\"%char → x ≠ LF → x ≠ " "%char →
  startsWith (normalize s) (String x "") = startsWith s (String x "").
Proof.
  intros HB HL HS.
  assert (∀ c, c ≠ x → Ascii.eqb c x = false) as Hne.
  { intros c Hc. by apply Ascii.eqb_neq. }
  destruct (normalize_cases s)
    as [-> | [(t & -> & ->) | [(t & -> & ->) | [(t & -> & ->) | (c & t & -> & -> & _)]]]];
    try done.
  all: unfold RE_CRLF, RE_N, RE_T, FOUR_SPACES; rewrite !app_cons, !startsWith_cons.
  all: by rewrite !Hne by congruence.
Qed.

(** No literal backslash-n and no literal backslash-t is left. *)
Lemma normalize_no_escape (x : ascii) (s : string) :
  x = "n"%char ∨ x = "t"%char →
  includes (normalize s) (String "\" (String x "")) = false.
Proof.
  intros Hx.
  assert (x ≠ "\"%char ∧ x ≠ LF ∧ x ≠ " "%char) as (HB & HL & HS).
  { by destruct Hx as [-> | ->]. }
  induction s as [|t IH|t IH|t IH|c t E1 E2 E3 IH] using normalize_ind.
  - done.
  - rewrite normalize_crlf, includes_cons, IH. done.
  - rewrite normalize_n, includes_cons, IH. done.
  - rewrite normalize_t. unfold FOUR_SPACES.
    rewrite !app_cons, app_empty_l, !includes_cons, IH. done.
  - rewrite normalize_keep by done. rewrite includes_cons, IH, orb_false_r.
    rewrite startsWith_cons, normalize_head by done.
    rewrite <- startsWith_cons.
    by destruct Hx as [-> | ->].
Qed.

Lemma includes_crlf_n (s : string) :
  includes s RE_CRLF = true → includes s RE_N = true.
Proof.
  induction s as [|c s IH]; [done|].
  rewrite !includes_cons. intros [H | H]%orb_prop.
  - destruct (startsWith_inv _ _ H) as [t Ht].
    rewrite <- includes_cons, Ht.
    apply (includes_app_r "\r" ("\n" +:+ t)), includes_startsWith, startsWith_app.
  - rewrite (IH H). apply orb_true_r.
Qed.

Lemma normalize_escapeFree_result (s : string) : escapeFree (normalize s).
Proof.
  assert (includes (normalize s) RE_N = false) as Hn.
  { apply (normalize_no_escape "n"). by left. }
  split; [|split; [done|]].
  - destruct (includes (normalize s) RE_CRLF) eqn:E; [|done].
    by rewrite (includes_crlf_n _ E) in Hn.
  - apply (normalize_no_escape "t"). by right.
Qed.


Lemma normalize_empty (s : string) : normalize s = "" → s = "".
Proof.
  destruct (normalize_cases s)
    as [-> | [(t & -> & ->) | [(t & -> & ->) | [(t & -> & ->) | (c & t & -> & -> & _)]]]];
    done.
Qed.

(** X1. Normalizing is idempotent on every string: the result contains
    none of the literal sequences, so a second application changes
    nothing. *)
Theorem unescapeString_idempotent (s : string) :
  escapeFree (unescapeString s)
  ∧ unescapeString (unescapeString s) = unescapeString s
  ∧ (let* once := unescapeNewlinesAndTabs (VString s) in
     unescapeNewlinesAndTabs (VString once))
    = unescapeNewlinesAndTabs (VString s).
Proof.
  assert (unescapeString (unescapeString s) = unescapeString s) as Hidem.
  { rewrite !unescapeString_normalize.
    apply normalize_escapeFree, normalize_escapeFree_result. }
  split; [|split; [done|]].
  - rewrite unescapeString_normalize. apply normalize_escapeFree_result.
  - rewrite unescape_of_string. simpl. by rewrite unescape_of_string, Hidem.
Qed.



End NormalizerMore.

(** ** The extractor: what it looks at *)

Section ExtractorMore.
Import Extractor Normalizer Session Samples.

Lemma probe_step_object (m : gmap string value) (p : prop) :
  probe_step (VObject m) p = default VUndefined (m !! prop_name p).
Proof. reflexivity. Qed.

(** The result depends on three fields of the object only. *)
Lemma extractAssistantText_fields (m m' : gmap string value) :
  m !! "choices" = m' !! "choices" →
  m !! "output" = m' !! "output" →
  m !! "data" = m' !! "data" →
  extractAssistantText (VObject m) = extractAssistantText (VObject m').
Proof.
  intros Hc Ho Hd. rewrite !extractAssistantText_search.
  unfold orderedSearch, SHAPES, OPENAI_SHAPE, OUTPUT_SHAPE, NESTED_SHAPE, probe.
  cbn [map foldl]. rewrite !probe_step_object. cbn [prop_name].
  by rewrite Hc, Ho, Hd.
Qed.

(** X3. Fields other than [choices], [output] and [data] play no part:
    adding, replacing or removing one leaves the extracted text as it
    is. *)
Theorem extractAssistantText_ignores_other_fields
    (m : gmap string value) (k : string) (v : value) :
  k ≠ "choices" → k ≠ "output" → k ≠ "data" →
  extractAssistantText (VObject (<[k := v]> m)) = extractAssistantText (VObject m)
  ∧ extractAssistantText (VObject (delete k m)) = extractAssistantText (VObject m).
Proof.
  intros Hc Ho Hd. split.
  - apply extractAssistantText_fields; by rewrite lookup_insert_ne.
  - apply extractAssistantText_fields; by rewrite lookup_delete_ne.
Qed.

Lemma extractAssistantText_ignores_other_fields_witness :
  extractAssistantText (VObject (<["usage" := VNumber 12%float]> (list_to_map
     [("choices", VArray [obj [("message", obj [("content", VString "Hi there")])]])])))
  = extractAssistantText hi_there.
Proof.
  apply (extractAssistantText_ignores_other_fields _ "usage" (VNumber 12%float)); done.
Defined.

(** X4. Of the [choices] array only the first element is read: the
    later ones never change the result, also when the first one has no
    usable content. *)
Theorem extractAssistantText_first_choice_only
    (m : gmap string value) (c : value) (rest : list value) :
  extractAssistantText (VObject (<["choices" := VArray (c :: rest)]> m))
  = extractAssistantText (VObject (<["choices" := VArray [c]]> m)).
Proof.
  rewrite !extractAssistantText_search.
  unfold orderedSearch, SHAPES, OPENAI_SHAPE, OUTPUT_SHAPE, NESTED_SHAPE, probe.
  cbn [map foldl]. rewrite !probe_step_object. cbn [prop_name].
  rewrite !lookup_insert_eq. rewrite !lookup_insert_ne by done.
  done.
Qed.

(** X5. A parsed body that is not an object (null, a boolean, a number,
    a string, an array) has no extracted text, and its content rendering
    is the placeholder. *)
Theorem non_object_has_no_text (v : value) :
  (∀ m, v ≠ VObject m) →
  extractAssistantText v = VString "" ∧ contentRendering v = DASH.
Proof.
  intros Hv.
  destruct v as [| |b|x|s|l|m]; try (by split).
  by destruct (Hv m).
Qed.

Lemma non_object_has_no_text_witness :
  extractAssistantText (VArray [hi_there]) = VString ""
  ∧ contentRendering (VArray [hi_there]) = DASH.
Proof.
  apply (non_object_has_no_text (VArray [hi_there])). intros m H. discriminate H.
Defined.

(** X6. The content rendering shows nothing of its own exactly when
    [output.content] is no non-empty string: a non-empty string never
    normalizes to the empty one. *)
Theorem outputContentUnescaped_empty_iff (raw : value) :
  outputContentUnescaped raw = ""
  ↔ isNonEmptyString (probe [P_output; P_content] raw) = false.
Proof.
  rewrite outputContentUnescaped_probe. unfold OUTPUT_SHAPE. split.
  - destruct (probe [P_output; P_content] raw) as [| |b|x|s|l|m]; try done.
    rewrite unescape_of_string, unescapeString_normalize. simpl.
    intros ->%normalize_empty. done.
  - apply unescape_not_string.
Qed.

End ExtractorMore.

(** ** The session: outcomes and invariants *)

Section SessionMore.
Import Request Extractor Normalizer Session Samples View.

Lemma handleSend_catch_error (e : exn) (st : state) :
  ∃ message, error (handleSend_catch e st) = Some message
             ∧ rawResponse (handleSend_catch e st) = rawResponse st
             ∧ assistantText (handleSend_catch e st) = assistantText st
             ∧ prompt (handleSend_catch e st) = prompt st
             ∧ responseView (handleSend_catch e st) = responseView st.
Proof.
  destruct e as [name message|name message|]; simpl.
  - destruct (String.eqb name "AbortError"); by eexists.
  - by eexists.
  - by eexists.
Qed.

(** The two ways out of [handleSend_try]: the parsed body stored with
    its extracted text, or a throw with the state untouched. *)
Lemma handleSend_try_cases (reply : completion response) (st : state) :
  (∃ r data, reply = Normal r ∧ ok r = true ∧ json r = Normal data
             ∧ handleSend_try reply st
               = (Normal (), setAssistantText (extractAssistantText data)
                               (setRawResponse data st)))
  ∨ (∃ e, handleSend_try reply st = (Throw e, st)
          ∧ ¬ (∃ r data, reply = Normal r ∧ ok r = true ∧ json r = Normal data)).
Proof.
  destruct reply as [r|e]; simpl.
  - destruct (ok r) eqn:Hok; simpl.
    + destruct (json r) as [data|e] eqn:Hjson.
      * left. by exists r, data.
      * right. exists e. split; [done|]. intros (r' & data & [= <-] & _ & H). congruence.
    + right. destruct (text r) as [body_text|e]; eexists; (split; [done|]);
        intros (r' & data & [= <-] & H & _); congruence.
  - right. exists e. split; [done|]. by intros (r & data & H & _).
Qed.




(** After the call has settled the display is consistent, provided it
    was cleared before. *)
Lemma handleSend_resume_consistent (reply : completion response) (st : state) :
  error st = None → rawResponse st = VNull → assistantText st = VString "" →
  displayConsistent (handleSend_resume reply st).
Proof.
  intros Herr Hraw Htext. unfold handleSend_resume.
  destruct (handleSend_try_cases reply st)
    as [(r & data & _ & _ & _ & ->) | (e & -> & _)].
  - unfold displayConsistent. simpl. rewrite Herr. by repeat split.
  - destruct (handleSend_catch_error e st) as (message & He & Hr & Ht & _).
    unfold displayConsistent. simpl. rewrite Hr, Ht, Hraw, Htext. by repeat split.
Qed.

Lemma step_consistent (w : world) (ev : event) :
  singleFlight w ∧ displayConsistent (ui w) →
  singleFlight (step w ev) ∧ displayConsistent (ui (step w ev)).
Proof.
  intros [Hflight Hdisplay]. split; [by apply step_singleFlight|].
  destruct ev as [|p|checked|net]; simpl; try done.
  - destruct (sendDisabled (ui w)); [done|]. by repeat split.
  - destruct Hflight as [[Hq Hl] | (rq & Hq & Hl)]; rewrite Hq; [done|].
    destruct Hdisplay as (Hloading & _ & Htext).
    destruct (Hloading Hl) as [Herr Hraw].
    apply handleSend_resume_consistent; try done. by rewrite Htext, Hraw.
Qed.

Lemma run_consistent (evs : list event) (w : world) :
  singleFlight w ∧ displayConsistent (ui w) →
  singleFlight (run w evs) ∧ displayConsistent (ui (run w evs)).
Proof.
  revert w. induction evs as [|ev evs IH]; intros w Inv; [done|].
  apply IH, step_consistent, Inv.
Qed.

Lemma start_consistent : singleFlight start ∧ displayConsistent (ui start).
Proof. split; [by left|]. by repeat split. Qed.

(** X9. In every state the component can reach, no error and no response
    are held while a request is pending, and an error is never held
    together with a response: a new send clears what the last one left,
    and a failure stores nothing. *)
Theorem reachable_error_excludes_response (evs : list event) :
  (loading (ui (run start evs)) = true →
   error (ui (run start evs)) = None
   ∧ rawResponse (ui (run start evs)) = VNull
   ∧ assistantText (ui (run start evs)) = VString "")
  ∧ (error (ui (run start evs)) ≠ None →
     loading (ui (run start evs)) = false
     ∧ rawResponse (ui (run start evs)) = VNull
     ∧ assistantText (ui (run start evs)) = VString "").
Proof.
  destruct (run_consistent evs start start_consistent) as [_ (Hloading & Herror & Htext)].
  split.
  - intros Hl. destruct (Hloading Hl) as [He Hr]. by rewrite Htext, Hr.
  - intros He. rewrite Htext, (Herror He). repeat split.
    destruct (loading (ui (run start evs))) eqn:Hl; [|done].
    by destruct (Hloading eq_refl) as [He' _].
Qed.

Lemma reachable_error_excludes_response_witness :
  rawResponse (ui (run start [ClickSend; Network (Settles 5 (Normal hi_there_response));
                              ClickSend; Network Silent])) = VNull.
Proof.
  destruct (reachable_error_excludes_response
              [ClickSend; Network (Settles 5 (Normal hi_there_response));
               ClickSend; Network Silent]) as [_ Hfailed].
  apply Hfailed. vm_compute. discriminate.
Defined.

(** X10. In every state the component can reach, the assistant text is
    the text extracted from the stored response, the two never stem from
    different responses, and it is a string. *)
Theorem reachable_text_matches_response (evs : list event) :
  assistantText (ui (run start evs))
  = extractAssistantText (rawResponse (ui (run start evs)))
  ∧ ∃ s, assistantText (ui (run start evs)) = VString s.
Proof.
  destruct (run_consistent evs start start_consistent) as [_ (_ & _ & Htext)].
  split; [done|]. rewrite Htext, extractAssistantText_search.
  apply firstNonEmptyString_string.
Qed.












(** X13. What a reachable state displays: while a request is pending the
    button reads "Sending…", the assistant box shows the waiting text and
    no error box is rendered; otherwise the button reads "Send" and the
    assistant box shows the extracted text as Markdown, or the
    placeholder when there is none; with an error box on screen the
    assistant box shows the placeholder. *)
Theorem reachable_display (evs : list event) :
  (loading (ui (run start evs)) = true →
   sendLabel (ui (run start evs)) = "Sending…"
   ∧ assistantBox (ui (run start evs)) = Plain "Waiting for response…"
   ∧ errorBox (ui (run start evs)) = None)
  ∧ (loading (ui (run start evs)) = false →
     sendLabel (ui (run start evs)) = "Send"
     ∧ assistantBox (ui (run start evs))
       = if isNonEmptyString (extractAssistantText (rawResponse (ui (run start evs))))
         then Markdown (extractAssistantText (rawResponse (ui (run start evs))))
         else Plain DASH)
  ∧ (errorBox (ui (run start evs)) ≠ None →
     assistantBox (ui (run start evs)) = Plain DASH).
Proof.
  destruct (run_consistent evs start start_consistent) as [_ (Hloading & Herror & Htext)].
  set (st := ui (run start evs)) in *.
  unfold sendLabel, assistantBox, errorBox.
  split; [|split].
  - intros Hl. destruct (Hloading Hl) as [He Hr].
    rewrite Hl, He, Htext, Hr. done.
  - intros Hl. rewrite Hl, Htext. split; [done|].
    destruct (firstNonEmptyString_string
                (map (fun path => probe path (rawResponse st)) SHAPES)) as [s Hs].
    rewrite extractAssistantText_search. unfold orderedSearch. rewrite Hs.
    by destruct s.
  - destruct (error st) as [message|] eqn:He; [|done]. intros _.
    rewrite Htext, (Herror ltac:(done)).
    destruct (loading st) eqn:Hl; [|done].
    by destruct (Hloading eq_refl) as [He' _].
Qed.

Lemma reachable_display_witness :
  sendLabel (ui (run start [ClickSend])) = "Sending…"
  ∧ assistantBox (ui (run start [ClickSend])) = Plain "Waiting for response…"
  ∧ errorBox (ui (run start [ClickSend])) = None.
Proof.
  apply (reachable_display [ClickSend]). vm_compute. reflexivity.
Defined.

End SessionMore.
